(** * The [Flask] application object of [src/flask/app.py]

    A shallow embedding of the class [Flask]: its constructor, [run],
    [route] with the closure [decorator] it returns, and [add_url_rule].

    Python values are untyped, so every argument is a [value]; the
    annotations of the source are not enforced at run time and are not
    modelled.  The instance is its attribute dictionary.  The keyword
    dictionary [options] of a call of [route] is captured by the closure
    [decorator] and mutated by it ([options.pop]), so it lives in a store
    of dictionaries and the closure holds a reference to it.

    Methods are looked up on the class: no instance carries an attribute
    that shadows one, and [Flask] is not subclassed.  *)

From stdpp Require Import base option list strings gmap fin_maps.

Open Scope string_scope.
Open Scope list_scope.

(** ** Values and the store *)

Definition loc := positive.

Inductive value :=
| VNone
| VBool (b : bool)
| VInt (n : Z)
| VStr (s : string)
| VFunc (id : positive) (name : string)
    (* a function object: its identity and its __name__ *)
| VObj (self : loc)
    (* a reference to a Flask instance *)
| VDecorator (self : loc) (rule : value) (options : loc).
    (* the closure [decorator] built by [route], with the variables it
       captures: [self], [rule] and a reference to the dict [options] *)

#[global] Instance value_inhabited : Inhabited value := populate VNone.

(** The store: the attribute dictionary ([__dict__]) of every Flask
    instance, and the keyword dictionaries captured by closures. *)
Record world := World {
  objects : gmap loc (gmap string value);
  dicts : gmap loc (gmap string value)
}.

Definition getattr (w : world) (o : value) (name : string) : option value :=
  match o with
  | VObj l => objects w !! l ≫= λ a, a !! name
  | _ => None
  end.

(** ** Effects

    The source has two kinds of effect: assignments to attributes of
    [self], and one call site ([self.add_url_rule(...)] in [decorator]).
    Both are recorded in a trace, next to the store, so that "is called
    exactly once with these arguments" and "is assigned exactly once" can
    be stated.  The trace is not part of the program state. *)

Inductive event :=
| EvSetAttr (self : loc) (name : string) (v : value)
| EvCall (callee : string) (self : loc) (args : list value)
         (kwargs : gmap string value).

Inductive exn :=
| TypeError (callee : string)   (* raised when the arguments of a call do not bind *)
| KeyError (key : string).      (* raised by dict.pop without a default *)

(** How a computation ends.  [Wrong] is not a Python outcome: it marks
    what the model does not cover (a dangling reference, calling a value
    that is not a [decorator]). *)
Inductive completion (A : Type) :=
| Return (a : A)
| Raise (e : exn)
| Wrong.
Arguments Return {A} a.
Arguments Raise {A} e.
Arguments Wrong {A}.

Record outcome (A : Type) := Outcome {
  how : completion A;
  after : world;
  events : list event
}.
Arguments Outcome {A} how after events.
Arguments how {A} o.
Arguments after {A} o.
Arguments events {A} o.

Definition M (A : Type) : Type := world → outcome A.

#[global] Instance M_ret : MRet M := λ A a w, Outcome (Return a) w [].

#[global] Instance M_bind : MBind M := λ A B k m w,
  let o := m w in
  match how o with
  | Return a =>
      let o' := k a (after o) in
      Outcome (how o') (after o') (events o ++ events o')
  | Raise e => Outcome (Raise e) (after o) (events o)
  | Wrong => Outcome Wrong (after o) (events o)
  end.

Definition raise {A} (e : exn) : M A := λ w, Outcome (Raise e) w [].
Definition wrong {A} : M A := λ w, Outcome Wrong w [].
Definition tell (e : event) : M unit := λ w, Outcome (Return ()) w [e].

(** [object.__new__]: a fresh instance with an empty attribute dictionary. *)
Definition new_object : M loc := λ w,
  let l := fresh (dom (objects w)) in
  Outcome (Return l) (World (<[l := ∅]> (objects w)) (dicts w)) [].

(** [self.name = v] *)
Definition setattr (self : loc) (name : string) (v : value) : M unit := λ w,
  match objects w !! self with
  | Some a =>
      Outcome (Return ())
              (World (<[self := <[name := v]> a]> (objects w)) (dicts w))
              [EvSetAttr self name v]
  | None => Outcome Wrong w []
  end.

(** The dict that collects the [**options] of a call. *)
Definition new_dict (d : gmap string value) : M loc := λ w,
  let l := fresh (dom (dicts w)) in
  Outcome (Return l) (World (objects w) (<[l := d]> (dicts w))) [].

(** [d.pop(key)] and [d.pop(key, default)] *)
Definition dict_pop (cell : loc) (key : string) (dflt : option value)
  : M value := λ w,
  match dicts w !! cell with
  | Some d =>
      match d !! key with
      | Some v =>
          Outcome (Return v)
                  (World (objects w) (<[cell := delete key d]> (dicts w))) []
      | None =>
          match dflt with
          | Some v => Outcome (Return v) w []
          | None => Outcome (Raise (KeyError key)) w []
          end
      end
  | None => Outcome Wrong w []
  end.

(** The items of a dict, as [**d] unpacks them at a call. *)
Definition dict_items (cell : loc) : M (gmap string value) := λ w,
  match dicts w !! cell with
  | Some d => Outcome (Return d) w []
  | None => Outcome Wrong w []
  end.

(** ** Argument binding

    What Python does when a function is called with positional arguments
    [pos] and keyword arguments [kw]: positional arguments fill the
    parameters in order; a keyword that names a parameter fills it, unless
    a positional argument already did (TypeError); any other keyword goes
    to the [**] parameter when there is one (TypeError otherwise); a
    parameter left unfilled takes its default (TypeError when it has
    none).  Only the exception type is modelled, not its message. *)

Record signature := Signature {
  sig_name : string;
  sig_params : list (string * option value);   (* name and default *)
  sig_varkw : bool                             (* is there a ** parameter *)
}.

Record bound := Bound {
  params : gmap string value;
  varkw : gmap string value
}.

Fixpoint bind_params (ps : list (string * option value)) (pos : list value)
    (kw : gmap string value) : option (gmap string value) :=
  match ps, pos with
  | [], [] => Some ∅
  | [], _ :: _ => None                    (* too many positional arguments *)
  | (x, _) :: ps', v :: pos' =>
      match kw !! x with
      | Some _ => None                    (* multiple values for x *)
      | None => insert x v <$> bind_params ps' pos' kw
      end
  | (x, dflt) :: ps', [] =>
      match kw !! x, dflt with
      | Some v, _ => insert x v <$> bind_params ps' [] kw
      | None, Some v => insert x v <$> bind_params ps' [] kw
      | None, None => None                (* missing required argument x *)
      end
  end.

Definition bind_args (sg : signature) (pos : list value)
    (kw : gmap string value) : option bound :=
  let extra := foldr delete kw (sig_params sg).*1 in
  p ← bind_params (sig_params sg) pos kw;
  if sig_varkw sg || bool_decide (extra = ∅)
  then Some (Bound p extra)
  else None.                              (* unexpected keyword argument *)

Definition bind_call (sg : signature) (pos : list value)
    (kw : gmap string value) : M bound :=
  match bind_args sg pos kw with
  | Some b => mret b
  | None => raise (TypeError (sig_name sg))
  end.

(** ** The class [Flask] *)

Module Flask.

(** The signatures, with the defaults of the source. *)

Definition sig__init__ : signature :=
  Signature "__init__"
    [ ("self", None);
      ("import_name", None);
      ("static_url_path", Some VNone);
      ("static_folder", Some (VStr "static"));
      ("static_host", Some VNone);
      ("host_matching", Some (VBool false));
      ("subdomain_matching", Some (VBool false));
      ("template_folder", Some (VStr "templates"));
      ("instance_path", Some VNone);
      ("instance_relative_config", Some (VBool false));
      ("root_path", Some VNone) ]
    false.

Definition sig_run : signature :=
  Signature "run"
    [ ("self", None);
      ("host", Some VNone);
      ("port", Some VNone);
      ("debug", Some VNone);
      ("load_dotenv", Some (VBool true)) ]
    true.

Definition sig_route : signature :=
  Signature "route" [ ("self", None); ("rule", None) ] true.

Definition sig_add_url_rule : signature :=
  Signature "add_url_rule"
    [ ("self", None);
      ("rule", None);
      ("endpoint", Some VNone);
      ("view_func", Some VNone) ]
    true.

Definition sig_decorator : signature :=
  Signature "decorator" [ ("f", None) ] false.

(** The bodies, as functions of the bound parameters. *)

Definition __init__ (self : loc)
    (import_name static_url_path static_folder static_host host_matching
     subdomain_matching template_folder instance_path
     instance_relative_config root_path : value) : M value :=
  setattr self "import_name" import_name;;
  setattr self "static_url_path" static_url_path;;
  setattr self "static_folder" static_folder;;
  setattr self "static_host" static_host;;
  setattr self "host_matching" host_matching;;
  setattr self "subdomain_matching" subdomain_matching;;
  setattr self "template_folder" template_folder;;
  setattr self "instance_path" instance_path;;
  setattr self "instance_relative_config" instance_relative_config;;
  setattr self "root_path" root_path;;
  mret VNone.

Definition run (self : loc) (host port debug load_dotenv : value)
    (options : gmap string value) : M value :=
  mret VNone.

Definition add_url_rule (self : loc) (rule endpoint view_func : value)
    (options : gmap string value) : M value :=
  mret VNone.

(** Calls: the arguments are bound, then the body runs.  [self] is the
    first positional argument, as for any bound method. *)

Definition call__init__ (self : loc) (pos : list value)
    (kw : gmap string value) : M value :=
  b ← bind_call sig__init__ (VObj self :: pos) kw;
  let p := params b in
  __init__ self (p !!! "import_name") (p !!! "static_url_path")
    (p !!! "static_folder") (p !!! "static_host") (p !!! "host_matching")
    (p !!! "subdomain_matching") (p !!! "template_folder")
    (p !!! "instance_path") (p !!! "instance_relative_config")
    (p !!! "root_path").

Definition call_run (self : loc) (pos : list value)
    (kw : gmap string value) : M value :=
  b ← bind_call sig_run (VObj self :: pos) kw;
  let p := params b in
  run self (p !!! "host") (p !!! "port") (p !!! "debug")
    (p !!! "load_dotenv") (varkw b).

Definition call_add_url_rule (self : loc) (pos : list value)
    (kw : gmap string value) : M value :=
  b ← bind_call sig_add_url_rule (VObj self :: pos) kw;
  let p := params b in
  add_url_rule self (p !!! "rule") (p !!! "endpoint") (p !!! "view_func")
    (varkw b).

(** The closure of [route]: [options] is the captured dict, shared by
    every application of the same closure. *)
Definition decorator (self : loc) (rule : value) (options : loc)
    (f : value) : M value :=
  endpoint ← dict_pop options "endpoint" (Some VNone);
  kw ← dict_items options;
  tell (EvCall "add_url_rule" self [rule; endpoint; f] kw);;
  call_add_url_rule self [rule; endpoint; f] kw;;
  mret f.

Definition route (self : loc) (rule : value) (options : gmap string value)
  : M value :=
  cell ← new_dict options;
  mret (VDecorator self rule cell).

Definition call_route (self : loc) (pos : list value)
    (kw : gmap string value) : M value :=
  b ← bind_call sig_route (VObj self :: pos) kw;
  route self (params b !!! "rule") (varkw b).

(** Applying a value to arguments.  Only closures of [route] are
    modelled; the view functions themselves are never called by the
    source. *)
Definition call (d : value) (pos : list value) (kw : gmap string value)
  : M value :=
  match d with
  | VDecorator self rule options =>
      b ← bind_call sig_decorator pos kw;
      decorator self rule options (params b !!! "f")
  | _ => wrong
  end.

(** [Flask(...)]: a new instance, initialised by [__init__]. *)
Definition new (pos : list value) (kw : gmap string value) : M value :=
  self ← new_object;
  call__init__ self pos kw;;
  mret (VObj self).

End Flask.


(** ** Client programs

    What a client can do with an application object once it is built:
    call [run], [add_url_rule] and [route], and apply a value (a decorator
    that an earlier [route] returned) to arguments.  A client chooses its
    next step from the completion of the previous one, so it can use what
    [route] returned and go on after an exception. *)

Inductive op :=
| Run (self : loc) (pos : list value) (kw : gmap string value)
| AddUrlRule (self : loc) (pos : list value) (kw : gmap string value)
| Route (self : loc) (pos : list value) (kw : gmap string value)
| Apply (d : value) (pos : list value) (kw : gmap string value).

Definition exec (o : op) : M value :=
  match o with
  | Run self pos kw => Flask.call_run self pos kw
  | AddUrlRule self pos kw => Flask.call_add_url_rule self pos kw
  | Route self pos kw => Flask.call_route self pos kw
  | Apply d pos kw => Flask.call d pos kw
  end.

Inductive client :=
| Done
| Step (o : op) (next : completion value → client).

Fixpoint run_client (c : client) (w : world) : world * list event :=
  match c with
  | Done => (w, [])
  | Step o next =>
      let r := exec o w in
      let rest := run_client (next (how r)) (after r) in
      (rest.1, events r ++ rest.2)
  end.

(** The attribute assignments of a trace, in order. *)
Definition assigned (t : list event) : list (loc * string) :=
  omap (λ e, match e with
             | EvSetAttr self name _ => Some (self, name)
             | EvCall _ _ _ _ => None
             end) t.

(** The [endpoint] argument (second positional) of each call of a trace. *)
Definition forwarded_endpoints (t : list event) : list value :=
  omap (λ e, match e with
             | EvCall _ _ args _ => args !! 1%nat
             | EvSetAttr _ _ _ => None
             end) t.

(** The ten configuration fields, in the order [__init__] assigns them. *)
Definition config_fields : list string :=
  [ "import_name"; "static_url_path"; "static_folder"; "static_host";
    "host_matching"; "subdomain_matching"; "template_folder";
    "instance_path"; "instance_relative_config"; "root_path" ].

(** A completion that is a normal return or a TypeError of argument
    binding. *)
Definition binding_failure_at_most {A} (c : completion A) : Prop :=
  match c with
  | Return _ | Raise (TypeError _) => True
  | Raise (KeyError _) | Wrong => False
  end.

(** The keywords that [add_url_rule] accepts next to three positional
    arguments: none that names a parameter already filled. *)
Definition binds_add_url_rule (kw : gmap string value) : Prop :=
  kw !! "self" = None ∧ kw !! "rule" = None ∧
  kw !! "endpoint" = None ∧ kw !! "view_func" = None.

#[global] Instance binds_add_url_rule_dec kw : Decision (binds_add_url_rule kw).
Proof. unfold binds_add_url_rule. apply _. Defined.

(** A client that applies one value to each callable of a list in turn,
    going on whatever each application does. *)
Definition applications (d : value) (fs : list value) : client :=
  foldr (λ f c, Step (Apply d [f] ∅) (λ _, c)) Done fs.

(** The parameters of a signature that have a default, with it. *)
Definition optional_params (sg : signature) : list (string * value) :=
  omap (λ p, (λ d, (p.1, d)) <$> p.2) (sig_params sg).

(** ** A running example

    [app = Flask("myapp")] in an empty store, which puts the instance at
    location 1, and two view functions. *)
Definition myapp : world := after (Flask.new [VStr "myapp"] ∅ (World ∅ ∅)).
Definition index : value := VFunc 1 "index".
Definition about : value := VFunc 2 "about".

(** * Properties *)

(** ** The monad and the store *)

Lemma bind_eq {A B} (m : M A) (k : A → M B) w :
  (m ≫= k) w =
  match how (m w) with
  | Return a =>
      Outcome (how (k a (after (m w)))) (after (k a (after (m w))))
              (events (m w) ++ events (k a (after (m w))))
  | Raise e => Outcome (Raise e) (after (m w)) (events (m w))
  | Wrong => Outcome Wrong (after (m w)) (events (m w))
  end.
Proof. reflexivity. Qed.

Lemma bind_return {A B} (m : M A) (k : A → M B) w a w' t :
  m w = Outcome (Return a) w' t →
  (m ≫= k) w = Outcome (how (k a w')) (after (k a w')) (t ++ events (k a w')).
Proof. intros H. by rewrite bind_eq, H. Qed.

Lemma outcome_eta {A} (o : outcome A) :
  Outcome (how o) (after o) (events o) = o.
Proof. by destruct o. Qed.

Lemma setattr_eq self name v a w :
  objects w !! self = Some a →
  setattr self name v w =
  Outcome (Return ())
          (World (<[self := <[name := v]> a]> (objects w)) (dicts w))
          [EvSetAttr self name v].
Proof. intros H. unfold setattr. by rewrite H. Qed.

Lemma new_object_fresh w : objects w !! fresh (dom (objects w)) = None.
Proof. apply not_elem_of_dom, is_fresh. Qed.

Lemma new_dict_fresh w : dicts w !! fresh (dom (dicts w)) = None.
Proof. apply not_elem_of_dom, is_fresh. Qed.

(** ** Argument binding, on examples *)

(** [Flask("myapp", static_folder="assets")]: a keyword fills its
    parameter, the others take their defaults. *)
Example bind_keyword_fills_parameter :
  params <$> bind_args Flask.sig__init__ [VObj 1%positive; VStr "myapp"]
               {["static_folder" := VStr "assets"]}
  = params <$> bind_args Flask.sig__init__
                 [VObj 1%positive; VStr "myapp"; VNone; VStr "assets"] ∅.
Proof. reflexivity. Qed.

(** [Flask()], [Flask("myapp", debug=True)] and
    [Flask("myapp", import_name="other")] are TypeErrors: a parameter
    without a value, a keyword that names no parameter, a parameter given
    twice. *)
Example bind_rejects :
  bind_args Flask.sig__init__ [VObj 1%positive] ∅ = None ∧
  bind_args Flask.sig__init__ [VObj 1%positive; VStr "myapp"]
    {["debug" := VBool true]} = None ∧
  bind_args Flask.sig__init__ [VObj 1%positive; VStr "myapp"]
    {["import_name" := VStr "other"]} = None.
Proof. vm_compute. repeat split. Qed.

(** [app.run(threaded=True)]: a keyword that names no parameter goes to
    [**options]. *)
Example bind_collects_options :
  varkw <$> bind_args Flask.sig_run [VObj 1%positive]
              {["threaded" := VBool true]}
  = Some {["threaded" := VBool true]}.
Proof. vm_compute. reflexivity. Qed.

(** ** [__init__] *)

Lemma init_eq self a1 a2 a3 a4 a5 a6 a7 a8 a9 a10 a w :
  objects w !! self = Some a →
  Flask.__init__ self a1 a2 a3 a4 a5 a6 a7 a8 a9 a10 w =
  Outcome (Return VNone)
    (World
       (<[self :=
            <["root_path" := a10]> (<["instance_relative_config" := a9]>
            (<["instance_path" := a8]> (<["template_folder" := a7]>
            (<["subdomain_matching" := a6]> (<["host_matching" := a5]>
            (<["static_host" := a4]> (<["static_folder" := a3]>
            (<["static_url_path" := a2]> (<["import_name" := a1]> a)))))))))]>
          (objects w))
       (dicts w))
    [ EvSetAttr self "import_name" a1;
      EvSetAttr self "static_url_path" a2;
      EvSetAttr self "static_folder" a3;
      EvSetAttr self "static_host" a4;
      EvSetAttr self "host_matching" a5;
      EvSetAttr self "subdomain_matching" a6;
      EvSetAttr self "template_folder" a7;
      EvSetAttr self "instance_path" a8;
      EvSetAttr self "instance_relative_config" a9;
      EvSetAttr self "root_path" a10 ].
Proof.
  intros H. unfold Flask.__init__.
  repeat (rewrite bind_eq; erewrite setattr_eq;
          cbn [how after events objects dicts];
          [ | first [ exact H | apply lookup_insert_eq ] ]).
  rewrite !insert_insert_eq. reflexivity.
Qed.

(** [Flask(...)] once the arguments are bound: the instance is new, and
    [__init__] runs on it. *)
Lemma new_eq pos kw w :
  let self := fresh (dom (objects w)) in
  Flask.new pos kw w =
  match bind_args Flask.sig__init__ (VObj self :: pos) kw with
  | Some b =>
      let p := params b in
      let o := Flask.__init__ self (p !!! "import_name")
                 (p !!! "static_url_path") (p !!! "static_folder")
                 (p !!! "static_host") (p !!! "host_matching")
                 (p !!! "subdomain_matching") (p !!! "template_folder")
                 (p !!! "instance_path") (p !!! "instance_relative_config")
                 (p !!! "root_path")
                 (World (<[self := ∅]> (objects w)) (dicts w)) in
      Outcome (Return (VObj self)) (after o) (events o)
  | None =>
      Outcome (Raise (TypeError "__init__"))
              (World (<[self := ∅]> (objects w)) (dicts w)) []
  end.
Proof.
  intros self. unfold Flask.new, Flask.call__init__, bind_call.
  rewrite bind_eq. cbn [new_object how after events]. fold self.
  rewrite bind_eq, bind_eq.
  destruct (bind_args _ _ _) as [b|]; [|reflexivity].
  cbn [mret M_ret how after events app].
  erewrite init_eq by apply lookup_insert_eq.
  reflexivity.
Qed.

(** Binding ten positional arguments: each parameter takes the argument
    at its position. *)
Lemma bind_init_positional self a1 a2 a3 a4 a5 a6 a7 a8 a9 a10 :
  bind_args Flask.sig__init__ [VObj self; a1; a2; a3; a4; a5; a6; a7; a8; a9; a10] ∅ =
  Some (Bound (list_to_map
                 [ ("self", VObj self); ("import_name", a1);
                   ("static_url_path", a2); ("static_folder", a3);
                   ("static_host", a4); ("host_matching", a5);
                   ("subdomain_matching", a6); ("template_folder", a7);
                   ("instance_path", a8); ("instance_relative_config", a9);
                   ("root_path", a10) ])
              ∅).
Proof. vm_compute. reflexivity. Qed.

(** Binding [import_name] alone: the other parameters take their
    defaults. *)
Lemma bind_init_defaults self import_name :
  bind_args Flask.sig__init__ [VObj self; import_name] ∅ =
  Some (Bound (list_to_map
                 [ ("self", VObj self); ("import_name", import_name);
                   ("static_url_path", VNone);
                   ("static_folder", VStr "static");
                   ("static_host", VNone); ("host_matching", VBool false);
                   ("subdomain_matching", VBool false);
                   ("template_folder", VStr "templates");
                   ("instance_path", VNone);
                   ("instance_relative_config", VBool false);
                   ("root_path", VNone) ])
              ∅).
Proof. vm_compute. reflexivity. Qed.

(** Binding the same ten arguments given by keyword: the parameters are
    bound as they are by position. *)
Lemma bind_init_keywords self a1 a2 a3 a4 a5 a6 a7 a8 a9 a10 :
  bind_args Flask.sig__init__ [VObj self]
    (list_to_map
       [ ("import_name", a1); ("static_url_path", a2);
         ("static_folder", a3); ("static_host", a4);
         ("host_matching", a5); ("subdomain_matching", a6);
         ("template_folder", a7); ("instance_path", a8);
         ("instance_relative_config", a9); ("root_path", a10) ]) =
  bind_args Flask.sig__init__
    [VObj self; a1; a2; a3; a4; a5; a6; a7; a8; a9; a10] ∅.
Proof. vm_compute. reflexivity. Qed.

(** Two calls of [Flask] that bind alike do the same. *)
Lemma new_ext pos kw pos' kw' w :
  (∀ self, bind_args Flask.sig__init__ (VObj self :: pos) kw =
           bind_args Flask.sig__init__ (VObj self :: pos') kw') →
  Flask.new pos kw w = Flask.new pos' kw' w.
Proof. intros H. by rewrite !new_eq, H. Qed.

(** What [Flask] returns for ten positional arguments. *)
Lemma new_positional a1 a2 a3 a4 a5 a6 a7 a8 a9 a10 w :
  let self := fresh (dom (objects w)) in
  Flask.new [a1; a2; a3; a4; a5; a6; a7; a8; a9; a10] ∅ w =
  Outcome (Return (VObj self))
    (World
       (<[self :=
            <["root_path" := a10]> (<["instance_relative_config" := a9]>
            (<["instance_path" := a8]> (<["template_folder" := a7]>
            (<["subdomain_matching" := a6]> (<["host_matching" := a5]>
            (<["static_host" := a4]> (<["static_folder" := a3]>
            (<["static_url_path" := a2]> (<["import_name" := a1]> ∅)))))))))]>
          (objects w))
       (dicts w))
    [ EvSetAttr self "import_name" a1;
      EvSetAttr self "static_url_path" a2;
      EvSetAttr self "static_folder" a3;
      EvSetAttr self "static_host" a4;
      EvSetAttr self "host_matching" a5;
      EvSetAttr self "subdomain_matching" a6;
      EvSetAttr self "template_folder" a7;
      EvSetAttr self "instance_path" a8;
      EvSetAttr self "instance_relative_config" a9;
      EvSetAttr self "root_path" a10 ].
Proof.
  intros self. rewrite new_eq. fold self. generalize self; clear self; intros self.
  rewrite bind_init_positional. cbn zeta.
  erewrite init_eq by apply lookup_insert_eq.
  cbn [after events params objects dicts]. rewrite insert_insert_eq.
  reflexivity.
Qed.

(** The fields of the instance that [Flask] returns. *)
Lemma construct_fields a1 a2 a3 a4 a5 a6 a7 a8 a9 a10 w :
  let o := Flask.new [a1; a2; a3; a4; a5; a6; a7; a8; a9; a10] ∅ w in
  let self := fresh (dom (objects w)) in
  how o = Return (VObj self) ∧
  Forall2 (λ name a, objects (after o) !! self ≫= (λ attrs, attrs !! name)
                     = Some a)
          config_fields [a1; a2; a3; a4; a5; a6; a7; a8; a9; a10].
Proof.
  intros o self. subst o self. rewrite new_positional.
  cbn [how after objects]. rewrite lookup_insert_eq. cbn [mbind option_bind].
  split; [done|]. unfold config_fields.
  repeat (constructor; [by simplify_map_eq|]). constructor.
Qed.

(** C1.  Construction stores its arguments: for all ten arguments, and in
    any store, [Flask(import_name, ..., root_path)] returns a new instance
    on which each of the ten attributes reads back the argument passed for
    it; passing the arguments by keyword gives the same. *)
Theorem construct_stores_arguments
    (import_name static_url_path static_folder static_host host_matching
     subdomain_matching template_folder instance_path
     instance_relative_config root_path : value) (w : world) :
  let o := Flask.new [ import_name; static_url_path; static_folder;
                       static_host; host_matching; subdomain_matching;
                       template_folder; instance_path;
                       instance_relative_config; root_path ] ∅ w in
  let app := VObj (fresh (dom (objects w))) in
  how o = Return app ∧
  getattr (after o) app "import_name" = Some import_name ∧
  getattr (after o) app "static_url_path" = Some static_url_path ∧
  getattr (after o) app "static_folder" = Some static_folder ∧
  getattr (after o) app "static_host" = Some static_host ∧
  getattr (after o) app "host_matching" = Some host_matching ∧
  getattr (after o) app "subdomain_matching" = Some subdomain_matching ∧
  getattr (after o) app "template_folder" = Some template_folder ∧
  getattr (after o) app "instance_path" = Some instance_path ∧
  getattr (after o) app "instance_relative_config"
    = Some instance_relative_config ∧
  getattr (after o) app "root_path" = Some root_path ∧
  Flask.new []
    (list_to_map
       [ ("import_name", import_name); ("static_url_path", static_url_path);
         ("static_folder", static_folder); ("static_host", static_host);
         ("host_matching", host_matching);
         ("subdomain_matching", subdomain_matching);
         ("template_folder", template_folder);
         ("instance_path", instance_path);
         ("instance_relative_config", instance_relative_config);
         ("root_path", root_path) ]) w = o.
Proof.
  intros o app. subst o app.
  rewrite (new_ext [] _ _ ∅) by (intros; apply bind_init_keywords).
  rewrite new_positional.
  cbn [how after getattr objects]. rewrite lookup_insert_eq.
  cbn [mbind option_bind].
  repeat split; by simplify_map_eq.
Qed.

(** The example of the specification: [Flask("myapp").import_name]. *)
Example construct_myapp :
  let o := Flask.new [VStr "myapp"] ∅ (World ∅ ∅) in
  how o = Return (VObj 1%positive) ∧
  getattr (after o) (VObj 1%positive) "import_name" = Some (VStr "myapp").
Proof. vm_compute. split; reflexivity. Qed.

(** ** [run] and [add_url_rule] *)

(** A call whose body is [pass]: whatever the arguments, it returns
    [None] or fails to bind, and touches nothing. *)
Lemma call_run_eq self pos kw w :
  Flask.call_run self pos kw w =
  Outcome (match bind_args Flask.sig_run (VObj self :: pos) kw with
           | Some _ => Return VNone
           | None => Raise (TypeError "run")
           end) w [].
Proof.
  unfold Flask.call_run, bind_call. rewrite bind_eq.
  by destruct (bind_args _ _ _).
Qed.

Lemma call_add_url_rule_eq self pos kw w :
  Flask.call_add_url_rule self pos kw w =
  Outcome (match bind_args Flask.sig_add_url_rule (VObj self :: pos) kw with
           | Some _ => Return VNone
           | None => Raise (TypeError "add_url_rule")
           end) w [].
Proof.
  unfold Flask.call_add_url_rule, bind_call. rewrite bind_eq.
  by destruct (bind_args _ _ _).
Qed.

(** With [rule], [endpoint] and [view_func] given by position, the call
    binds exactly when no keyword names one of them (or [self]). *)
Lemma bind_add_url_rule_positional self rule endpoint view_func kw :
  is_Some (bind_args Flask.sig_add_url_rule
             [VObj self; rule; endpoint; view_func] kw)
  ↔ binds_add_url_rule kw.
Proof.
  unfold bind_args, binds_add_url_rule. cbn.
  destruct (kw !! "self"), (kw !! "rule"), (kw !! "endpoint"),
    (kw !! "view_func"); cbn; split;
    first [ by intros [? [=]] | by intros (? & ? & ? & ?) | by eauto ].
Qed.

(** ** [route] and its closure *)

Lemma route_eq self rule options w :
  Flask.route self rule options w =
  Outcome (Return (VDecorator self rule (fresh (dom (dicts w)))))
          (World (objects w) (<[fresh (dom (dicts w)) := options]> (dicts w)))
          [].
Proof. reflexivity. Qed.

(** One application of the closure, when its captured dict holds [d]:
    the key [endpoint] leaves the dict, [add_url_rule] is called once, and
    [f] comes back unless that call does not bind. *)
Lemma decorator_eq self rule cell f d w :
  dicts w !! cell = Some d →
  Flask.decorator self rule cell f w =
  Outcome (if decide (binds_add_url_rule (delete "endpoint" d))
           then Return f else Raise (TypeError "add_url_rule"))
          (World (objects w) (<[cell := delete "endpoint" d]> (dicts w)))
          [ EvCall "add_url_rule" self
              [rule; default VNone (d !! "endpoint"); f]
              (delete "endpoint" d) ].
Proof.
  intros Hd. unfold Flask.decorator.
  assert (∃ w', w' = World (objects w) (<[cell := delete "endpoint" d]> (dicts w))
            ∧ dict_pop cell "endpoint" (Some VNone) w =
              Outcome (Return (default VNone (d !! "endpoint"))) w' [])
    as (w' & Hw' & Hpop).
  { eexists; split; [reflexivity|]. unfold dict_pop. rewrite Hd.
    destruct (d !! "endpoint") as [e|] eqn:He; [done|].
    cbn. f_equal. destruct w as [os ds]; cbn in *. f_equal.
    rewrite delete_id by done. by rewrite insert_id. }
  assert (dict_items cell w' = Outcome (Return (delete "endpoint" d)) w' [])
    as Hitems.
  { unfold dict_items. subst w'. cbn [dicts]. by rewrite lookup_insert_eq. }
  erewrite bind_return by exact Hpop.
  erewrite bind_return by exact Hitems.
  erewrite bind_return by reflexivity.
  rewrite bind_eq, call_add_url_rule_eq. cbn [how after events app].
  destruct (bind_add_url_rule_positional self rule
              (default VNone (d !! "endpoint")) f (delete "endpoint" d))
    as [Hto Hfrom].
  destruct (decide _) as [Hb|Hb].
  - destruct (Hfrom Hb) as [b ->]. by subst w'.
  - destruct (bind_args _ _ _) eqn:Hbind; [|by subst w'].
    destruct Hb. apply Hto. eauto.
Qed.

(** Applying a closure of [route] to one positional argument. *)
Lemma bind_decorator_positional f :
  bind_args Flask.sig_decorator [f] ∅ = Some (Bound {["f" := f]} ∅).
Proof. vm_compute. reflexivity. Qed.

Lemma call_decorator_eq self rule cell f w :
  Flask.call (VDecorator self rule cell) [f] ∅ w =
  Flask.decorator self rule cell f w.
Proof.
  unfold Flask.call, bind_call. rewrite bind_decorator_positional.
  erewrite bind_return by reflexivity.
  cbn [params app]. rewrite lookup_total_singleton.
  apply outcome_eta.
Qed.

(** [route(rule, **options)(f)], in one piece. *)
Lemma route_apply_eq self rule options f w :
  (Flask.route self rule options ≫= λ d, Flask.call d [f] ∅) w =
  Outcome (if decide (binds_add_url_rule (delete "endpoint" options))
           then Return f else Raise (TypeError "add_url_rule"))
          (World (objects w)
                 (<[fresh (dom (dicts w)) := delete "endpoint" options]>
                    (dicts w)))
          [ EvCall "add_url_rule" self
              [rule; default VNone (options !! "endpoint"); f]
              (delete "endpoint" options) ].
Proof.
  rewrite bind_eq, route_eq. cbn [how after events].
  rewrite call_decorator_eq.
  erewrite decorator_eq by apply lookup_insert_eq.
  cbn [how after events objects dicts app]. by rewrite insert_insert_eq.
Qed.

(** A call of [route] with [rule] by position binds unless a keyword is
    [self] or [rule]; [options] is then all the keywords. *)
Lemma call_route_positional self rule kw w :
  kw !! "self" = None → kw !! "rule" = None →
  Flask.call_route self [rule] kw w = Flask.route self rule kw w.
Proof.
  intros Hs Hr. unfold Flask.call_route, bind_call, bind_args. cbn.
  rewrite Hs, Hr. cbn.
  erewrite bind_return by reflexivity. cbn [params varkw app].
  rewrite lookup_total_insert_ne by done. rewrite lookup_total_insert_eq.
  rewrite !delete_id by (by rewrite ?lookup_delete_ne).
  apply outcome_eta.
Qed.

Lemma call_route_clash self rule kw w :
  is_Some (kw !! "self") ∨ is_Some (kw !! "rule") →
  Flask.call_route self [rule] kw w = Outcome (Raise (TypeError "route")) w [].
Proof.
  intros H. unfold Flask.call_route, bind_call, bind_args. cbn.
  destruct (kw !! "self"); cbn; [done|].
  destruct (kw !! "rule"); cbn; [done|].
  by destruct H as [[? [=]]|[? [=]]].
Qed.

(** C2, as amended.  For every rule, every callable [f] and every options
    mapping without the key [view_func] (and without [self] and [rule],
    which a call of [route] cannot put into [options]), applying the
    decorator returned by [route(rule, **options)] to [f] returns [f]
    itself. *)
Theorem decorator_returns_callable
    (self : loc) (rule f : value) (options : gmap string value) (w : world) :
  options !! "view_func" = None →
  options !! "self" = None →
  options !! "rule" = None →
  how ((Flask.route self rule options ≫= λ d, Flask.call d [f] ∅) w)
  = Return f.
Proof.
  intros Hv Hs Hr. rewrite route_apply_eq. cbn [how].
  rewrite decide_True; [done|].
  unfold binds_add_url_rule.
  by rewrite lookup_delete_eq, !lookup_delete_ne.
Qed.

Lemma decorator_returns_callable_witness :
  how ((Flask.route 1%positive (VStr "/") {["methods" := VStr "GET"]}
          ≫= λ d, Flask.call d [index] ∅) myapp)
  = Return index.
Proof. apply decorator_returns_callable; reflexivity. Defined.

(** C2 as stated fails: [app.route("/", view_func=about)(index)] does not
    return [index]; the forwarded call
    [add_url_rule("/", None, index, view_func=about)] gives [view_func]
    twice and raises TypeError. *)
Lemma decorator_raises_on_view_func :
  how ((Flask.call_route 1%positive [VStr "/"] {["view_func" := about]}
          ≫= λ d, Flask.call d [index] ∅) myapp)
  = Raise (TypeError "add_url_rule")
  ∧ how ((Flask.route 1%positive (VStr "/") {["view_func" := about]}
            ≫= λ d, Flask.call d [index] ∅) myapp)
    = Raise (TypeError "add_url_rule").
Proof. split; vm_compute; reflexivity. Qed.

(** C3.  For every rule, options mapping and callable [f], applying the
    decorator returned by [route(rule, **options)] to [f] calls
    [add_url_rule] exactly once, with the arguments
    [(rule, endpoint, f, **remaining)], where [endpoint] is the value of
    the key [endpoint] in [options] ([None] when absent) and [remaining]
    is [options] without that key. *)
Theorem decorator_forwards_once
    (self : loc) (rule f : value) (options : gmap string value) (w : world) :
  events ((Flask.route self rule options ≫= λ d, Flask.call d [f] ∅) w)
  = [ EvCall "add_url_rule" self
        [rule; default VNone (options !! "endpoint"); f]
        (delete "endpoint" options) ].
Proof. by rewrite route_apply_eq. Qed.

(** C7.  One decorator applied twice: when [options] supplied a value [e]
    for [endpoint], the first application forwards [e] and removes the key
    from the captured dict, so the second application of the same
    decorator forwards [None]; the two forwarded endpoints differ as soon
    as [e] is a value other than [None]. *)
Theorem decorator_is_stateful
    (self : loc) (rule f g e : value) (options : gmap string value)
    (w : world) :
  options !! "endpoint" = Some e →
  let o1 := Flask.route self rule options w in
  let d := VDecorator self rule (fresh (dom (dicts w))) in
  let o2 := Flask.call d [f] ∅ (after o1) in
  let o3 := Flask.call d [g] ∅ (after o2) in
  how o1 = Return d ∧
  events o2 = [ EvCall "add_url_rule" self [rule; e; f]
                  (delete "endpoint" options) ] ∧
  events o3 = [ EvCall "add_url_rule" self [rule; VNone; g]
                  (delete "endpoint" options) ] ∧
  forwarded_endpoints (events o2) = [e] ∧
  forwarded_endpoints (events o3) = [VNone] ∧
  (e ≠ VNone →
   forwarded_endpoints (events o2) ≠ forwarded_endpoints (events o3)).
Proof.
  intros He o1 d o2 o3. subst o1 d o2 o3.
  rewrite route_eq. cbn [how after].
  rewrite !call_decorator_eq.
  erewrite (decorator_eq _ _ _ f) by apply lookup_insert_eq.
  cbn [after events].
  erewrite (decorator_eq _ _ _ g) by apply lookup_insert_eq.
  cbn [events]. rewrite He, lookup_delete_eq, delete_delete_eq. cbn.
  repeat split. congruence.
Qed.

Lemma decorator_is_stateful_witness :
  let options : gmap string value := {["endpoint" := VStr "home"]} in
  let o1 := Flask.route 1%positive (VStr "/") options myapp in
  let d := VDecorator 1%positive (VStr "/") (fresh (dom (dicts myapp))) in
  let o2 := Flask.call d [index] ∅ (after o1) in
  let o3 := Flask.call d [about] ∅ (after o2) in
  forwarded_endpoints (events o2) = [VStr "home"] ∧
  forwarded_endpoints (events o3) = [VNone].
Proof.
  pose proof (decorator_is_stateful 1%positive (VStr "/") index about
                (VStr "home") {["endpoint" := VStr "home"]} myapp
                eq_refl) as H.
  cbv zeta in H. destruct H as (_ & _ & _ & H2 & H3 & _).
  split; [exact H2 | exact H3].
Defined.

(** C8.  When [options] has no key [endpoint], the decorator forwards
    the endpoint [None], whatever the callable: in particular not the
    name of a function it decorates. *)
Theorem decorator_forwards_no_endpoint
    (self : loc) (rule f : value) (options : gmap string value) (w : world) :
  options !! "endpoint" = None →
  let run f := (Flask.route self rule options ≫= λ d, Flask.call d [f] ∅) w in
  events (run f) = [ EvCall "add_url_rule" self [rule; VNone; f] options ] ∧
  forwarded_endpoints (events (run f)) = [VNone] ∧
  ∀ id name,
    forwarded_endpoints (events (run (VFunc id name))) ≠ [VStr name].
Proof.
  intros He run. subst run. cbn beta.
  rewrite !route_apply_eq. cbn [events]. rewrite He, delete_id by done.
  repeat split. intros id name. rewrite route_apply_eq. cbn. by rewrite He.
Qed.

Lemma decorator_forwards_no_endpoint_witness :
  events ((Flask.route 1%positive (VStr "/") ∅
             ≫= λ d, Flask.call d [index] ∅) myapp)
  = [ EvCall "add_url_rule" 1%positive [VStr "/"; VNone; index] ∅ ].
Proof.
  exact (proj1 (decorator_forwards_no_endpoint 1%positive (VStr "/") index
                  ∅ myapp eq_refl)).
Defined.

(** C4.  [run] and [add_url_rule] do nothing: for every application
    object, every argument and every store, each returns [None], raises
    nothing, assigns nothing and calls nothing, and leaves the store as it
    was (every field of every instance, and nothing new that could map a
    rule to an endpoint); registering the same rule and endpoint a second
    time is no different.  However the arguments are passed, a call of
    either leaves the store and the trace untouched. *)
Theorem run_and_add_url_rule_do_nothing
    (self : loc) (host port debug load_dotenv rule endpoint view_func : value)
    (options : gmap string value) (pos : list value)
    (kw : gmap string value) (w : world) :
  Flask.run self host port debug load_dotenv options w
  = Outcome (Return VNone) w [] ∧
  Flask.add_url_rule self rule endpoint view_func options w
  = Outcome (Return VNone) w [] ∧
  (Flask.add_url_rule self rule endpoint view_func options ≫= λ _,
   Flask.add_url_rule self rule endpoint view_func options) w
  = Outcome (Return VNone) w [] ∧
  after (Flask.call_run self pos kw w) = w ∧
  events (Flask.call_run self pos kw w) = [] ∧
  after (Flask.call_add_url_rule self pos kw w) = w ∧
  events (Flask.call_add_url_rule self pos kw w) = [].
Proof.
  rewrite call_run_eq, call_add_url_rule_eq. repeat split.
Qed.

(** ** Failures *)

Lemma call_eq self rule cell pos kw w :
  Flask.call (VDecorator self rule cell) pos kw w =
  match bind_args Flask.sig_decorator pos kw with
  | Some b => Flask.decorator self rule cell (params b !!! "f") w
  | None => Outcome (Raise (TypeError "decorator")) w []
  end.
Proof.
  unfold Flask.call, bind_call.
  destruct (bind_args _ _ _) as [b|]; [|reflexivity].
  erewrite bind_return by reflexivity. apply outcome_eta.
Qed.

Lemma call_route_eq self pos kw w :
  Flask.call_route self pos kw w =
  match bind_args Flask.sig_route (VObj self :: pos) kw with
  | Some b => Flask.route self (params b !!! "rule") (varkw b) w
  | None => Outcome (Raise (TypeError "route")) w []
  end.
Proof.
  unfold Flask.call_route, bind_call.
  destruct (bind_args _ _ _) as [b|]; [|reflexivity].
  erewrite bind_return by reflexivity. apply outcome_eta.
Qed.

(** C5.  No operation raises an error of its own; the only failure is
    the TypeError of argument binding, and it occurs exactly when the
    arguments of a call do not bind.  With their parameters bound,
    construction, [run], [add_url_rule] and [route] return.  Called with
    any positional and keyword arguments, each of them returns when the
    arguments bind to its signature and raises TypeError when they do
    not.  The decorator that [route] returned, applied to any arguments,
    raises TypeError when they do not bind to its one parameter or when
    its forwarded call of [add_url_rule] does not bind, and returns its
    argument otherwise.  Nothing ends in KeyError or outside the model. *)
Theorem no_error_beyond_binding
    (self : loc) (pos pos' : list value) (kw kw' : gmap string value)
    (a1 a2 a3 a4 a5 a6 a7 a8 a9 a10 host port debug load_dotenv
     rule endpoint view_func f : value)
    (options : gmap string value) (w : world) :
  (* the bodies, with their parameters bound *)
  how (Flask.new [a1; a2; a3; a4; a5; a6; a7; a8; a9; a10] ∅ w)
  = Return (VObj (fresh (dom (objects w)))) ∧
  how (Flask.run self host port debug load_dotenv options w)
  = Return VNone ∧
  how (Flask.add_url_rule self rule endpoint view_func options w)
  = Return VNone ∧
  how (Flask.route self rule options w)
  = Return (VDecorator self rule (fresh (dom (dicts w)))) ∧
  how ((Flask.route self rule options ≫= λ d, Flask.call d [f] ∅) w)
  = (if decide (binds_add_url_rule (delete "endpoint" options))
     then Return f else Raise (TypeError "add_url_rule")) ∧
  (* the calls, for any arguments *)
  how (Flask.new pos kw w)
  = match bind_args Flask.sig__init__
            (VObj (fresh (dom (objects w))) :: pos) kw with
    | Some _ => Return (VObj (fresh (dom (objects w))))
    | None => Raise (TypeError "__init__")
    end ∧
  how (Flask.call_run self pos kw w)
  = match bind_args Flask.sig_run (VObj self :: pos) kw with
    | Some _ => Return VNone
    | None => Raise (TypeError "run")
    end ∧
  how (Flask.call_add_url_rule self pos kw w)
  = match bind_args Flask.sig_add_url_rule (VObj self :: pos) kw with
    | Some _ => Return VNone
    | None => Raise (TypeError "add_url_rule")
    end ∧
  how (Flask.call_route self pos kw w)
  = match bind_args Flask.sig_route (VObj self :: pos) kw with
    | Some b =>
        Return (VDecorator self (params b !!! "rule")
                  (fresh (dom (dicts w))))
    | None => Raise (TypeError "route")
    end ∧
  how ((Flask.call_route self pos kw ≫= λ d, Flask.call d pos' kw') w)
  = match bind_args Flask.sig_route (VObj self :: pos) kw with
    | Some b =>
        match bind_args Flask.sig_decorator pos' kw' with
        | Some b' =>
            if decide (binds_add_url_rule (delete "endpoint" (varkw b)))
            then Return (params b' !!! "f")
            else Raise (TypeError "add_url_rule")
        | None => Raise (TypeError "decorator")
        end
    | None => Raise (TypeError "route")
    end ∧
  (* hence nothing but a return or the TypeError of binding *)
  binding_failure_at_most (how (Flask.new pos kw w)) ∧
  binding_failure_at_most (how (Flask.call_run self pos kw w)) ∧
  binding_failure_at_most (how (Flask.call_add_url_rule self pos kw w)) ∧
  binding_failure_at_most (how (Flask.call_route self pos kw w)) ∧
  binding_failure_at_most
    (how ((Flask.call_route self pos kw ≫= λ d, Flask.call d pos' kw') w)).
Proof.
  assert (how ((Flask.call_route self pos kw ≫= λ d, Flask.call d pos' kw') w)
          = match bind_args Flask.sig_route (VObj self :: pos) kw with
            | Some b =>
                match bind_args Flask.sig_decorator pos' kw' with
                | Some b' =>
                    if decide (binds_add_url_rule
                                 (delete "endpoint" (varkw b)))
                    then Return (params b' !!! "f")
                    else Raise (TypeError "add_url_rule")
                | None => Raise (TypeError "decorator")
                end
            | None => Raise (TypeError "route")
            end) as Happly.
  { rewrite bind_eq, call_route_eq.
    destruct (bind_args Flask.sig_route _ _) as [b|]; [|done].
    rewrite route_eq. cbn [how after events]. rewrite call_eq.
    destruct (bind_args Flask.sig_decorator _ _) as [b'|]; [|done].
    by erewrite decorator_eq by apply lookup_insert_eq. }
  rewrite Happly, new_positional, route_apply_eq, new_eq, call_run_eq,
    call_add_url_rule_eq, call_route_eq.
  cbv zeta. cbn [how].
  repeat split;
    repeat (destruct (bind_args _ _ _) as [?|]; cbn [how]);
    try done; by destruct (decide _).
Qed.

(** ** The frame of the operations *)

Lemma decorator_frame self rule cell f w :
  objects (after (Flask.decorator self rule cell f w)) = objects w ∧
  assigned (events (Flask.decorator self rule cell f w)) = [].
Proof.
  destruct (dicts w !! cell) as [d|] eqn:Hd.
  - by erewrite decorator_eq.
  - unfold Flask.decorator. rewrite bind_eq. unfold dict_pop. by rewrite Hd.
Qed.

Lemma exec_frame o w :
  objects (after (exec o w)) = objects w ∧ assigned (events (exec o w)) = [].
Proof.
  destruct o as [self pos kw|self pos kw|self pos kw|d pos kw]; cbn [exec].
  - by rewrite call_run_eq.
  - by rewrite call_add_url_rule_eq.
  - rewrite call_route_eq. by destruct (bind_args _ _ _).
  - destruct d; try done. rewrite call_eq.
    destruct (bind_args _ _ _); [apply decorator_frame|done].
Qed.

Lemma run_client_frame c w :
  objects (run_client c w).1 = objects w ∧ assigned (run_client c w).2 = [].
Proof.
  revert w. induction c as [|o next IH]; intros w; [done|].
  cbn [run_client fst snd].
  destruct (exec_frame o w) as [Hobj Hev].
  destruct (IH (how (exec o w)) (after (exec o w))) as [Hobj' Hev'].
  split; [congruence|].
  unfold assigned in *. by rewrite omap_app, Hev, Hev'.
Qed.

(** C6.  The ten configuration fields are assigned exactly once each, by
    the constructor, and no later operation touches them: whatever a
    client then does with [route], the decorators it returns,
    [add_url_rule] and [run], nothing is assigned, the attributes of every
    instance stay as they were, and each field still reads the argument
    that the constructor was given. *)
Theorem config_fields_set_once_and_preserved
    (a1 a2 a3 a4 a5 a6 a7 a8 a9 a10 : value) (w : world) (c : client) :
  let o := Flask.new [a1; a2; a3; a4; a5; a6; a7; a8; a9; a10] ∅ w in
  let self := fresh (dom (objects w)) in
  let final := run_client c (after o) in
  how o = Return (VObj self) ∧
  assigned (events o) = (λ name, (self, name)) <$> config_fields ∧
  NoDup config_fields ∧
  assigned final.2 = [] ∧
  objects final.1 = objects (after o) ∧
  Forall2 (λ name a, getattr final.1 (VObj self) name = Some a)
          config_fields [a1; a2; a3; a4; a5; a6; a7; a8; a9; a10].
Proof.
  intros o self final.
  destruct (run_client_frame c (after o)) as [Hobj Hev]. fold final in Hobj, Hev.
  pose proof (construct_fields a1 a2 a3 a4 a5 a6 a7 a8 a9 a10 w) as Hnew.
  cbv zeta in Hnew. fold o self in Hnew.
  destruct Hnew as (Hhow & Hfields).
  split; [exact Hhow|]. split.
  { subst o self. by rewrite new_positional. }
  split; [compute_done|].
  split; [exact Hev|]. split; [exact Hobj|].
  unfold getattr. rewrite Hobj. exact Hfields.
Qed.

(** ** Defaults *)

(** A call of [run] that gives at most [host], [port] and [debug] by
    position, and no [load_dotenv], binds [load_dotenv] to [True]. *)
Lemma bind_run_load_dotenv self pos kw :
  (length pos ≤ 3)%nat →
  kw !! "load_dotenv" = None →
  Forall (λ x, kw !! x = None)
         (take (S (length pos)) ["self"; "host"; "port"; "debug"]) →
  ∃ b, bind_args Flask.sig_run (VObj self :: pos) kw = Some b ∧
       params b !!! "load_dotenv" = VBool true.
Proof.
  intros Hlen Hl Hclash.
  destruct pos as [|host [|port [|debug [|? ?]]]];
    [| | | |cbn in Hlen; lia];
    cbn in Hclash; repeat (apply Forall_cons in Hclash as [? Hclash]);
    unfold bind_args; cbn; repeat case_match; simplify_eq; cbn;
    (eexists; split; [reflexivity|]); cbn [params];
    by rewrite ?lookup_total_insert_ne, lookup_total_insert_eq by done.
Qed.

(** C9.  The defaults of the signatures.  [Flask(import_name)] returns an
    instance whose other nine fields read [None], ["static"], [None],
    [False], [False], ["templates"], [None], [False] and [None]; and a
    call of [run] that does not give [load_dotenv] (here with at most
    [host], [port] and [debug] by position, and keywords that repeat none
    of the positional ones) binds it to [True]. *)
Theorem signature_defaults
    (import_name : value) (w : world) (self : loc) (pos : list value)
    (kw : gmap string value) :
  (length pos ≤ 3)%nat →
  kw !! "load_dotenv" = None →
  Forall (λ x, kw !! x = None)
         (take (S (length pos)) ["self"; "host"; "port"; "debug"]) →
  let o := Flask.new [import_name] ∅ w in
  let app := VObj (fresh (dom (objects w))) in
  (how o = Return app ∧
   getattr (after o) app "import_name" = Some import_name ∧
   getattr (after o) app "static_url_path" = Some VNone ∧
   getattr (after o) app "static_folder" = Some (VStr "static") ∧
   getattr (after o) app "static_host" = Some VNone ∧
   getattr (after o) app "host_matching" = Some (VBool false) ∧
   getattr (after o) app "subdomain_matching" = Some (VBool false) ∧
   getattr (after o) app "template_folder" = Some (VStr "templates") ∧
   getattr (after o) app "instance_path" = Some VNone ∧
   getattr (after o) app "instance_relative_config" = Some (VBool false) ∧
   getattr (after o) app "root_path" = Some VNone) ∧
  (∃ b, bind_args Flask.sig_run (VObj self :: pos) kw = Some b ∧
        params b !!! "load_dotenv" = VBool true) ∧
  Flask.call_run self pos kw w = Outcome (Return VNone) w [].
Proof.
  intros Hlen Hl Hclash o app.
  destruct (bind_run_load_dotenv self pos kw Hlen Hl Hclash) as (b & Hb & Hd).
  split; [|split; [by eauto|by rewrite call_run_eq, Hb]].
  subst o app. rewrite new_eq. cbv zeta.
  generalize (fresh (dom (objects w))). intros l.
  rewrite bind_init_defaults. cbn [params].
  erewrite init_eq by apply lookup_insert_eq.
  cbn [how after getattr objects]. rewrite lookup_insert_eq.
  cbn [mbind option_bind].
  repeat split; by simplify_map_eq.
Qed.

Lemma signature_defaults_witness :
  getattr (after (Flask.new [VStr "myapp"] ∅ (World ∅ ∅))) (VObj 1%positive)
    "static_folder" = Some (VStr "static") ∧
  Flask.call_run 1%positive [VStr "localhost"] {["port" := VInt 8000]} myapp
  = Outcome (Return VNone) myapp [].
Proof.
  pose proof (signature_defaults (VStr "myapp") (World ∅ ∅) 1%positive
                [VStr "localhost"] {["port" := VInt 8000]}) as H.
  cbv zeta in H.
  destruct H as [(_ & _ & _ & H & _) _].
  - cbn. lia.
  - reflexivity.
  - cbn. repeat constructor.
  - split; [exact H|].
    pose proof (signature_defaults (VStr "myapp") myapp 1%positive
                  [VStr "localhost"] {["port" := VInt 8000]}) as H'.
    cbv zeta in H'. apply H'.
    + cbn. lia.
    + reflexivity.
    + cbn. repeat constructor.
Defined.

(** * Further properties *)

(** ** Argument binding in general *)

Lemma bind_params_too_many ps pos kw :
  (length ps < length pos)%nat → bind_params ps pos kw = None.
Proof.
  revert pos. induction ps as [|[x d] ps IH]; intros [|v pos] Hlen;
    cbn in *; try lia; [done|].
  destruct (kw !! x); [done|]. by rewrite IH by lia.
Qed.

Lemma bind_args_too_many sg pos kw :
  (length (sig_params sg) < length pos)%nat → bind_args sg pos kw = None.
Proof. intros H. unfold bind_args. by rewrite bind_params_too_many. Qed.

Lemma bind_params_cons_pos x d ps v pos kw :
  kw !! x = None →
  bind_params ((x, d) :: ps) (v :: pos) kw
  = insert x v <$> bind_params ps pos kw.
Proof. intros H. cbn. by rewrite H. Qed.

(** Without positional arguments, binding succeeds when every parameter
    has a keyword or a default, and gives each parameter its keyword, or
    else its default. *)
Lemma bind_params_nil_is_Some ps kw :
  Forall (λ p, is_Some (kw !! p.1) ∨ is_Some p.2) ps →
  is_Some (bind_params ps [] kw).
Proof.
  induction 1 as [|[x d] ps Hx _ IH]; cbn in *; [by eauto|].
  destruct IH as [p ->].
  destruct (kw !! x) as [v|]; [by eauto|].
  destruct d as [v|]; [by eauto|]. by destruct Hx as [[? ?]|[? ?]].
Qed.

Lemma bind_params_nil_lookup ps kw p x d :
  NoDup ps.*1 →
  bind_params ps [] kw = Some p →
  (x, d) ∈ ps →
  p !! x = match kw !! x with Some v => Some v | None => d end.
Proof.
  revert p. induction ps as [|[y dy] ps IH]; intros p Hnd Hb Hin.
  { by apply elem_of_nil in Hin. }
  cbn in Hnd. apply NoDup_cons in Hnd as [Hy Hnd].
  assert (∃ v q, bind_params ps [] kw = Some q ∧ p = <[y := v]> q ∧
                 Some v = match kw !! y with Some v => Some v | None => dy end)
    as (v & q & Hq & -> & Hv).
  { cbn in Hb. destruct (kw !! y) as [v|]; [|destruct dy as [v|]; [|done]];
      destruct (bind_params ps [] kw) as [q|]; cbn in Hb; simplify_eq;
      by eauto. }
  apply elem_of_cons in Hin as [[= -> ->]|Hin].
  - by rewrite lookup_insert_eq.
  - rewrite lookup_insert_ne; [by apply IH|].
    intros Heq. apply Hy. rewrite Heq.
    exact (list_elem_of_fmap_2 fst ps (x, d) Hin).
Qed.
(** Once the captured dict has no [endpoint], applying the decorator
    changes nothing and forwards [None]. *)
Lemma decorator_stable self rule cell f d w :
  dicts w !! cell = Some d →
  d !! "endpoint" = None →
  Flask.decorator self rule cell f w =
  Outcome (if decide (binds_add_url_rule d)
           then Return f else Raise (TypeError "add_url_rule"))
          w [ EvCall "add_url_rule" self [rule; VNone; f] d ].
Proof.
  intros Hd He. erewrite decorator_eq by exact Hd.
  rewrite He, delete_id by done. cbn [default].
  rewrite insert_id by done. by destruct w.
Qed.

Lemma applications_stable self rule cell fs d w :
  dicts w !! cell = Some d →
  d !! "endpoint" = None →
  run_client (applications (VDecorator self rule cell) fs) w
  = (w, (λ g, EvCall "add_url_rule" self [rule; VNone; g] d) <$> fs).
Proof.
  intros Hd He. induction fs as [|g fs IH]; [done|].
  cbn [applications foldr run_client exec].
  rewrite call_decorator_eq, (decorator_stable _ _ _ _ d) by done.
  cbn [how after events]. fold (applications (VDecorator self rule cell) fs).
  by rewrite IH.
Qed.

(** X1.  One decorator applied to a list of callables, one after the
    other: [add_url_rule] is called once per callable, in order; only the
    first call carries the endpoint that [options] supplied, every later
    one carries [None]; the other options are the same in every call, and
    the store no longer changes after the first application. *)
Theorem decorator_applied_repeatedly
    (self : loc) (rule f : value) (fs : list value)
    (options : gmap string value) (w : world) :
  let o := Flask.route self rule options w in
  let d := VDecorator self rule (fresh (dom (dicts w))) in
  let kw := delete "endpoint" options in
  let r := run_client (applications d (f :: fs)) (after o) in
  how o = Return d ∧
  r.2 = EvCall "add_url_rule" self
          [rule; default VNone (options !! "endpoint"); f] kw
        :: ((λ g, EvCall "add_url_rule" self [rule; VNone; g] kw) <$> fs) ∧
  r.1 = World (objects w) (<[fresh (dom (dicts w)) := kw]> (dicts w)).
Proof.
  intros o d kw r. subst o d kw r. rewrite route_eq. cbn [how after].
  cbn [applications foldr run_client exec].
  fold (applications (VDecorator self rule (fresh (dom (dicts w)))) fs).
  rewrite call_decorator_eq.
  erewrite decorator_eq by apply lookup_insert_eq.
  cbn [how after events objects dicts]. rewrite insert_insert_eq.
  erewrite applications_stable;
    [|apply lookup_insert_eq|apply lookup_delete_eq].
  done.
Qed.

(** X2.  Two calls of [route] give decorators that share nothing: each
    captures a dict of its own, so applying the first does not take the
    endpoint away from the second. *)
Theorem decorators_are_independent
    (self1 self2 : loc) (rule1 rule2 f g : value)
    (options1 options2 : gmap string value) (w : world) :
  let o1 := Flask.route self1 rule1 options1 w in
  let c1 := fresh (dom (dicts w)) in
  let o2 := Flask.route self2 rule2 options2 (after o1) in
  let c2 := fresh (dom (dicts (after o1))) in
  let o3 := Flask.call (VDecorator self1 rule1 c1) [f] ∅ (after o2) in
  let o4 := Flask.call (VDecorator self2 rule2 c2) [g] ∅ (after o3) in
  how o1 = Return (VDecorator self1 rule1 c1) ∧
  how o2 = Return (VDecorator self2 rule2 c2) ∧
  c1 ≠ c2 ∧
  events o3 = [ EvCall "add_url_rule" self1
                  [rule1; default VNone (options1 !! "endpoint"); f]
                  (delete "endpoint" options1) ] ∧
  events o4 = [ EvCall "add_url_rule" self2
                  [rule2; default VNone (options2 !! "endpoint"); g]
                  (delete "endpoint" options2) ] ∧
  dicts (after o4) !! c2 = Some (delete "endpoint" options2).
Proof.
  intros o1 c1 o2 c2 o3 o4. subst o1 c1 o2 c2 o3 o4.
  rewrite !route_eq. cbn [how after dicts objects].
  set (c1 := fresh (dom (dicts w))).
  set (c2 := fresh (dom (<[c1 := options1]> (dicts w)))).
  assert (c1 ≠ c2) as Hne.
  { intros Heq. apply (is_fresh (dom (<[c1 := options1]> (dicts w)))).
    fold c2. rewrite <- Heq. apply elem_of_dom.
    rewrite lookup_insert_eq. by eauto. }
  rewrite !call_decorator_eq.
  erewrite (decorator_eq _ _ c1 f)
    by (cbn [dicts]; rewrite lookup_insert_ne by done; apply lookup_insert_eq).
  cbn [after events dicts objects].
  erewrite (decorator_eq _ _ c2 g)
    by (cbn [dicts]; rewrite lookup_insert_ne by done; apply lookup_insert_eq).
  cbn [after events dicts]. rewrite lookup_insert_eq. done.
Qed.

(** X3.  The decorator pops [endpoint] before it calls [add_url_rule]:
    when that call does not bind (here because [options] has a
    [view_func]), the exception leaves the captured dict without its
    [endpoint], and a second attempt forwards [None]. *)
Theorem failed_application_still_pops
    (self : loc) (rule f g e v : value) (options : gmap string value)
    (w : world) :
  options !! "endpoint" = Some e →
  options !! "view_func" = Some v →
  let o1 := Flask.route self rule options w in
  let cell := fresh (dom (dicts w)) in
  let d := VDecorator self rule cell in
  let o2 := Flask.call d [f] ∅ (after o1) in
  let o3 := Flask.call d [g] ∅ (after o2) in
  dicts (after o1) !! cell = Some options ∧
  how o2 = Raise (TypeError "add_url_rule") ∧
  dicts (after o2) !! cell = Some (delete "endpoint" options) ∧
  how o3 = Raise (TypeError "add_url_rule") ∧
  forwarded_endpoints (events o2) = [e] ∧
  forwarded_endpoints (events o3) = [VNone].
Proof.
  intros He Hv o1 cell d o2 o3. subst o1 d o2 o3.
  rewrite route_eq. cbn [after dicts]. fold cell.
  rewrite !call_decorator_eq.
  erewrite (decorator_eq _ _ cell f) by apply lookup_insert_eq.
  cbn [how after events dicts objects].
  erewrite (decorator_eq _ _ cell g) by apply lookup_insert_eq.
  cbn [how after events dicts]. rewrite !lookup_insert_eq.
  rewrite delete_delete_eq, lookup_delete_eq, He. cbn.
  assert (¬ binds_add_url_rule (delete "endpoint" options)) as Hnb.
  { intros (_ & _ & _ & H). by rewrite lookup_delete_ne, Hv in H. }
  by repeat case_decide.
Qed.

(** X4.  The closure takes exactly one argument: applied to none, or to
    more than one, it raises TypeError before its body runs, so nothing is
    popped and nothing is called. *)
Theorem decorator_wrong_arity
    (self : loc) (rule : value) (cell : loc) (pos : list value) (w : world) :
  length pos ≠ 1%nat →
  Flask.call (VDecorator self rule cell) pos ∅ w
  = Outcome (Raise (TypeError "decorator")) w [].
Proof.
  intros Hlen. rewrite call_eq.
  destruct pos as [|a [|b pos]]; [done|done|].
  by rewrite bind_args_too_many by (cbn; lia).
Qed.

(** X6.  [import_name] is required and there are ten parameters: a call
    of [Flask] without [import_name], or with more than ten positional
    arguments, raises TypeError, and [__init__] assigns nothing. *)
Theorem construct_rejects
    (pos : list value) (kw : gmap string value) (w : world) :
  (pos = [] ∧ kw !! "import_name" = None) ∨ (10 < length pos)%nat →
  let o := Flask.new pos kw w in
  how o = Raise (TypeError "__init__") ∧
  events o = [] ∧
  dicts (after o) = dicts w ∧
  ∀ l, l ∈ dom (objects w) → objects (after o) !! l = objects w !! l.
Proof.
  intros H o. subst o. rewrite new_eq. cbv zeta.
  assert (bind_args Flask.sig__init__
            (VObj (fresh (dom (objects w))) :: pos) kw = None) as ->.
  { destruct H as [[-> Hi]|Hlen].
    - unfold bind_args. cbn. destruct (kw !! "self"); [done|]. by rewrite Hi.
    - apply bind_args_too_many. cbn. lia. }
  cbn [how after events dicts objects]. repeat split.
  intros l Hl. apply lookup_insert_ne. intros <-.
  by apply (is_fresh (dom (objects w))).
Qed.

(** X7.  Constructing an application touches no other: the instance is
    new, the attributes of every instance already in the store are as
    they were, and so is every captured dict, whether or not the
    arguments bind. *)
Theorem construct_frame
    (pos : list value) (kw : gmap string value) (w : world) (l : loc) :
  l ∈ dom (objects w) →
  let o := Flask.new pos kw w in
  l ≠ fresh (dom (objects w)) ∧
  objects (after o) !! l = objects w !! l ∧
  dicts (after o) = dicts w.
Proof.
  intros Hl o. subst o.
  assert (l ≠ fresh (dom (objects w))) as Hne.
  { intros ->. by apply (is_fresh (dom (objects w))). }
  split; [done|]. rewrite new_eq. cbv zeta.
  destruct (bind_args _ _ _) as [b|]; cbn [after objects dicts].
  - erewrite init_eq by apply lookup_insert_eq. cbn [after objects dicts].
    by rewrite !lookup_insert_ne.
  - by rewrite lookup_insert_ne.
Qed.

(** X10.  [run] has a default for every parameter and a [**options]:
    called with keywords only, whatever they are, it returns [None] and
    changes nothing. *)
Theorem run_accepts_any_keywords
    (self : loc) (kw : gmap string value) (w : world) :
  kw !! "self" = None →
  Flask.call_run self [] kw w = Outcome (Return VNone) w [].
Proof.
  intros Hs. rewrite call_run_eq.
  unfold bind_args. cbn. rewrite Hs.
  by repeat case_match.
Qed.

(** X11.  [add_url_rule] requires [rule]: without it the call raises
    TypeError; with it, by keyword or by position, and whatever the other
    keywords, the call returns [None]; the store is untouched either
    way. *)
Theorem add_url_rule_needs_rule
    (self : loc) (rule : value) (kw : gmap string value) (w : world) :
  kw !! "self" = None →
  kw !! "rule" = None →
  Flask.call_add_url_rule self [] kw w
  = Outcome (Raise (TypeError "add_url_rule")) w [] ∧
  Flask.call_add_url_rule self [] (<["rule" := rule]> kw) w
  = Outcome (Return VNone) w [] ∧
  Flask.call_add_url_rule self [rule] kw w
  = Outcome (Return VNone) w [].
Proof.
  intros Hs Hr. rewrite !call_add_url_rule_eq.
  unfold bind_args. cbn.
  rewrite lookup_insert_ne, Hs, Hr, lookup_insert_eq by done. cbn.
  rewrite !lookup_insert_ne by done.
  by repeat case_match.
Qed.

(** Binding [Flask(import_name, **kw)] when every keyword names an
    optional parameter. *)
Lemma bind_init_optional self import_name (kw : gmap string value) :
  dom kw ⊆ list_to_set (optional_params Flask.sig__init__).*1 →
  ∃ p, bind_args Flask.sig__init__ [VObj self; import_name] kw
       = Some (Bound p ∅) ∧
       p !! "import_name" = Some import_name ∧
       ∀ name dflt, (name, dflt) ∈ optional_params Flask.sig__init__ →
                    p !! name = Some (default dflt (kw !! name)).
Proof.
  intros Hdom.
  assert (∀ k, k ∉ (optional_params Flask.sig__init__).*1 → kw !! k = None)
    as Hout.
  { intros k Hk. apply not_elem_of_dom. intros Hin. apply Hk.
    apply Hdom in Hin. by apply elem_of_list_to_set in Hin. }
  set (opt := (λ p : string * value, (p.1, Some p.2))
                <$> optional_params Flask.sig__init__).
  assert (sig_params Flask.sig__init__
          = ("self", None) :: ("import_name", None) :: opt) as Hps
    by reflexivity.
  assert (Forall (λ p, is_Some (kw !! p.1) ∨ is_Some p.2) opt) as Hall.
  { subst opt. apply Forall_fmap, Forall_forall. intros [x d] _. cbn. eauto. }
  destruct (bind_params_nil_is_Some opt kw Hall) as [q Hq].
  exists (<["self" := VObj self]> (<["import_name" := import_name]> q)).
  assert (∀ name dflt, (name, dflt) ∈ optional_params Flask.sig__init__ →
                       q !! name = Some (default dflt (kw !! name))) as Hopt.
  { intros name dflt Hin.
    rewrite (bind_params_nil_lookup opt kw q name (Some dflt)); [| |done|].
    - by destruct (kw !! name).
    - subst opt. rewrite <- list_fmap_compose. compute_done.
    - subst opt. apply list_elem_of_fmap. by exists (name, dflt). }
  assert (foldr delete kw (sig_params Flask.sig__init__).*1 = ∅) as Hextra.
  { apply map_eq. intros k. rewrite lookup_empty.
    destruct (decide (k ∈ (sig_params Flask.sig__init__).*1)) as [Hk|Hk];
      [by apply lookup_foldr_delete|].
    rewrite lookup_foldr_delete_not_elem_of by done.
    apply Hout. intros Hin. apply Hk.
    rewrite Hps. cbn [fmap list_fmap fst].
    do 2 (apply elem_of_cons; right).
    apply list_elem_of_fmap in Hin as ([x d] & -> & Hin).
    apply list_elem_of_fmap. exists (x, Some d). split; [done|].
    apply list_elem_of_fmap. by exists (x, d). }
  split; [|split].
  - unfold bind_args. cbv zeta. rewrite Hextra, Hps.
    rewrite !bind_params_cons_pos by (apply Hout; compute_done).
    rewrite Hq. cbn. by rewrite bool_decide_eq_true_2.
  - by rewrite lookup_insert_ne, lookup_insert_eq.
  - intros name dflt Hin.
    pose proof (list_elem_of_fmap_2 fst _ _ Hin) as Hname. cbn in Hname.
    assert ("self" ∉ (optional_params Flask.sig__init__).*1) as Hs
      by compute_done.
    assert ("import_name" ∉ (optional_params Flask.sig__init__).*1) as Hi
      by compute_done.
    rewrite !lookup_insert_ne by (by intros <-). by apply Hopt.
Qed.

(** X8.  [Flask(import_name, **kw)] for any keywords among the nine
    optional parameters: each optional field reads the keyword given for
    it, and the default of the signature when none was given. *)
Theorem construct_with_keywords
    (import_name : value) (kw : gmap string value) (w : world) :
  dom kw ⊆ list_to_set (optional_params Flask.sig__init__).*1 →
  let o := Flask.new [import_name] kw w in
  let app := VObj (fresh (dom (objects w))) in
  how o = Return app ∧
  getattr (after o) app "import_name" = Some import_name ∧
  Forall (λ p, getattr (after o) app p.1 = Some (default p.2 (kw !! p.1)))
         (optional_params Flask.sig__init__).
Proof.
  intros Hdom o app. subst o app. rewrite new_eq. cbv zeta.
  generalize (fresh (dom (objects w))). intros self.
  destruct (bind_init_optional self import_name kw Hdom)
    as (p & -> & Hi & Hopt).
  cbn [params]. erewrite init_eq by apply lookup_insert_eq.
  cbn [how after getattr objects]. rewrite lookup_insert_eq.
  cbn [mbind option_bind].
  assert (∀ name dflt, (name, dflt) ∈ optional_params Flask.sig__init__ →
                       p !!! name = default dflt (kw !! name)) as Htot.
  { intros name dflt Hin. apply lookup_total_correct. by apply Hopt. }
  split; [done|]. split.
  { simplify_map_eq. f_equal. by apply lookup_total_correct. }
  apply Forall_forall. intros [name dflt] Hin. cbn [fst snd].
  rewrite <- (Htot name dflt Hin).
  revert Hin. unfold optional_params. cbn.
  rewrite !elem_of_cons, elem_of_nil.
  intros H. destruct_or!; try done; simplify_eq; by simplify_map_eq.
Qed.

Lemma construct_with_keywords_witness :
  getattr (after (Flask.new [VStr "myapp"]
                    {["static_folder" := VStr "assets"]} (World ∅ ∅)))
          (VObj 1%positive) "static_folder" = Some (VStr "assets").
Proof.
  pose proof (construct_with_keywords (VStr "myapp")
                {["static_folder" := VStr "assets"]} (World ∅ ∅)) as H.
  cbv zeta in H. destruct H as (_ & _ & H); [compute_done|].
  apply Forall_cons in H as [_ H]. apply Forall_cons in H as [H _].
  exact H.
Defined.

(** What one application can do to a dict of the store: nothing, or
    remove its key [endpoint]. *)
Lemma decorator_dicts self rule c f w cell d :
  dicts w !! cell = Some d →
  dicts (after (Flask.decorator self rule c f w)) !! cell = Some d ∨
  dicts (after (Flask.decorator self rule c f w)) !! cell
  = Some (delete "endpoint" d).
Proof.
  intros Hd. destruct (dicts w !! c) as [d0|] eqn:Hc.
  - erewrite decorator_eq by exact Hc. cbn [after dicts].
    destruct (decide (c = cell)) as [->|Hne].
    + right. rewrite lookup_insert_eq. congruence.
    + left. by rewrite lookup_insert_ne.
  - left. unfold Flask.decorator. rewrite bind_eq. unfold dict_pop.
    by rewrite Hc.
Qed.

Lemma exec_dicts o w cell d :
  dicts w !! cell = Some d →
  dicts (after (exec o w)) !! cell = Some d ∨
  dicts (after (exec o w)) !! cell = Some (delete "endpoint" d).
Proof.
  intros Hd.
  destruct o as [self pos kw|self pos kw|self pos kw|dec pos kw]; cbn [exec].
  - left. by rewrite call_run_eq.
  - left. by rewrite call_add_url_rule_eq.
  - left. rewrite call_route_eq. destruct (bind_args _ _ _); [|done].
    rewrite route_eq. cbn [after dicts]. rewrite lookup_insert_ne; [done|].
    intros Heq. apply (is_fresh (dom (dicts w))). rewrite Heq.
    apply elem_of_dom. by eauto.
  - destruct dec; try by left. rewrite call_eq.
    destruct (bind_args _ _ _); [by apply decorator_dicts|by left].
Qed.

(** X9.  Whatever a client does with [run], [add_url_rule], [route] and
    decorators, a dict captured by a decorator stays in the store and
    loses at most its key [endpoint]: every other option keeps its
    value. *)
Theorem options_survive_clients
    (c : client) (w : world) (cell : loc) (d : gmap string value) :
  dicts w !! cell = Some d →
  ∃ d', dicts (run_client c w).1 !! cell = Some d' ∧
        (d' = d ∨ d' = delete "endpoint" d) ∧
        ∀ key, key ≠ "endpoint" → d' !! key = d !! key.
Proof.
  revert w d. induction c as [|o next IH]; intros w d Hd.
  { exists d. cbn. by eauto. }
  cbn [run_client fst].
  destruct (exec_dicts o w cell d Hd) as [H1|H1];
    destruct (IH (how (exec o w)) _ _ H1) as (d' & Hd' & Hor & Hkeys);
    exists d'; (split; [done|]); split.
  - done.
  - done.
  - destruct Hor as [->| ->]; [by right|]. right. by rewrite delete_delete_eq.
  - intros key Hk. rewrite Hkeys by done. by rewrite lookup_delete_ne.
Qed.

Lemma failed_application_still_pops_witness :
  let options : gmap string value :=
    {["endpoint" := VStr "home"; "view_func" := about]} in
  let o1 := Flask.route 1%positive (VStr "/") options myapp in
  let d := VDecorator 1%positive (VStr "/") (fresh (dom (dicts myapp))) in
  let o2 := Flask.call d [index] ∅ (after o1) in
  let o3 := Flask.call d [index] ∅ (after o2) in
  how o2 = Raise (TypeError "add_url_rule") ∧
  forwarded_endpoints (events o3) = [VNone].
Proof.
  pose proof (failed_application_still_pops 1%positive (VStr "/") index index
                (VStr "home") about
                {["endpoint" := VStr "home"; "view_func" := about]} myapp)
    as H.
  cbv zeta in H. destruct H as (_ & H2 & _ & _ & _ & H3);
    [reflexivity|reflexivity|].
  split; [exact H2|exact H3].
Defined.

Lemma decorator_wrong_arity_witness :
  Flask.call (VDecorator 1%positive (VStr "/") 1%positive) [] ∅ myapp
  = Outcome (Raise (TypeError "decorator")) myapp [].
Proof. apply decorator_wrong_arity. cbn. lia. Defined.

Lemma construct_rejects_witness :
  how (Flask.new [] {["static_folder" := VStr "assets"]} (World ∅ ∅))
  = Raise (TypeError "__init__").
Proof.
  pose proof (construct_rejects [] {["static_folder" := VStr "assets"]}
                (World ∅ ∅)) as H.
  cbv zeta in H. apply H. left. split; reflexivity.
Defined.

Lemma construct_frame_witness :
  objects (after (Flask.new [VStr "other"] ∅ myapp)) !! 1%positive
  = objects myapp !! 1%positive.
Proof.
  pose proof (construct_frame [VStr "other"] ∅ myapp 1%positive) as H.
  cbv zeta in H. apply H. compute_done.
Defined.

Lemma run_accepts_any_keywords_witness :
  Flask.call_run 1%positive []
    {["load_dotenv" := VBool false; "threaded" := VBool true]} myapp
  = Outcome (Return VNone) myapp [].
Proof. apply run_accepts_any_keywords. reflexivity. Defined.

Lemma add_url_rule_needs_rule_witness :
  Flask.call_add_url_rule 1%positive [] {["endpoint" := VStr "home"]} myapp
  = Outcome (Raise (TypeError "add_url_rule")) myapp [].
Proof.
  apply (add_url_rule_needs_rule 1%positive (VStr "/")
           {["endpoint" := VStr "home"]} myapp); reflexivity.
Defined.

Lemma options_survive_clients_witness :
  dicts (run_client
           (Step (Apply (VDecorator 1%positive (VStr "/") 1%positive)
                    [index] ∅) (λ _, Done))
           (World ∅ {[ 1%positive :=
                       {["endpoint" := VStr "home";
                         "methods" := VStr "GET"]} ]})).1
    !! 1%positive ≫= (λ d', d' !! "methods")
  = Some (VStr "GET").
Proof.
  destruct (options_survive_clients
              (Step (Apply (VDecorator 1%positive (VStr "/") 1%positive)
                       [index] ∅) (λ _, Done))
              (World ∅ {[ 1%positive :=
                          {["endpoint" := VStr "home";
                            "methods" := VStr "GET"]} ]})
              1%positive
              {["endpoint" := VStr "home"; "methods" := VStr "GET"]})
    as (d' & Hd' & _ & Hkeys); [reflexivity|].
  transitivity (Some d' ≫= (λ d' : gmap string value, d' !! "methods")).
  - exact (f_equal (λ o, o ≫= λ d' : gmap string value, d' !! "methods") Hd').
  - cbn. by rewrite Hkeys.
Defined.

(** The cell of a new dict is not one in use. *)
Lemma fresh_insert_ne (m : gmap loc (gmap string value)) c d :
  fresh (dom (<[c := d]> m)) ≠ c.
Proof.
  intros Heq. apply (is_fresh (dom (<[c := d]> m))). rewrite Heq.
  apply elem_of_dom. rewrite lookup_insert_eq. by eauto.
Qed.

(** X5.  Decorators of [route] stack, as in

      @app.route(rule1, **options1)
      @app.route(rule2, **options2)
      def f(): ...

    When both forwarded calls bind, the result is [f] itself,
    [add_url_rule] has been called twice with [f], first for the inner
    rule and then for the outer one, each with its own endpoint, and no
    attribute of any instance has changed. *)
Theorem route_decorators_stack
    (self : loc) (rule1 rule2 f : value)
    (options1 options2 : gmap string value) (w : world) :
  binds_add_url_rule (delete "endpoint" options1) →
  binds_add_url_rule (delete "endpoint" options2) →
  let o := (Flask.route self rule1 options1 ≫= λ d1,
            Flask.route self rule2 options2 ≫= λ d2,
            Flask.call d2 [f] ∅ ≫= λ g,
            Flask.call d1 [g] ∅) w in
  how o = Return f ∧
  events o = [ EvCall "add_url_rule" self
                 [rule2; default VNone (options2 !! "endpoint"); f]
                 (delete "endpoint" options2);
               EvCall "add_url_rule" self
                 [rule1; default VNone (options1 !! "endpoint"); f]
                 (delete "endpoint" options1) ] ∧
  objects (after o) = objects w.
Proof.
  intros H1 H2 o. subst o.
  erewrite bind_return by apply route_eq.
  erewrite bind_return by apply route_eq.
  cbn [objects dicts].
  set (c1 := fresh (dom (dicts w))).
  set (c2 := fresh (dom (<[c1 := options1]> (dicts w)))).
  assert (c2 ≠ c1) as Hne by apply fresh_insert_ne.
  erewrite bind_return;
    [|rewrite call_decorator_eq; erewrite decorator_eq
        by (cbn [dicts]; apply lookup_insert_eq);
      rewrite decide_True by done; reflexivity].
  rewrite call_decorator_eq.
  erewrite decorator_eq
    by (cbn [dicts]; rewrite lookup_insert_ne by done;
        rewrite lookup_insert_ne by done; apply lookup_insert_eq).
  rewrite decide_True by done. done.
Qed.

Lemma route_decorators_stack_witness :
  how ((Flask.route 1%positive (VStr "/") ∅ ≫= λ d1,
        Flask.route 1%positive (VStr "/home") {["endpoint" := VStr "home"]}
          ≫= λ d2,
        Flask.call d2 [index] ∅ ≫= λ g,
        Flask.call d1 [g] ∅) myapp)
  = Return index.
Proof.
  pose proof (route_decorators_stack 1%positive (VStr "/") (VStr "/home")
                index ∅ {["endpoint" := VStr "home"]} myapp) as H.
  cbv zeta in H. apply H; compute_done.
Defined.
